(** * gag: a declaratively configured HTTP gateway

    Shallow embedding of the matching-and-dispatch engine of the [gag]
    package (condition.go and gag.go): Conditions, the middleware chain,
    the reverse-proxy terminal action, the per-Condition dispatch closure
    and the Serve entry point with its validation.

    Handlers have side effects on the response writer and on the network;
    they are embedded as state transformers over a [World] that holds the
    response writer and the list of effects performed so far.  A handler
    may panic (Go's nil dereference), so its result is an [Outcome]. *)

From Stdlib Require Import ZArith Ascii String List Bool Lia.
From stdpp Require Import base option list gmap strings pretty fin_maps.

Local Open Scope string_scope.
Local Open Scope Z_scope.

(** ** Strings that need a double quote *)

(** The character [0x22]. *)
Definition dq : string := String (ascii_of_nat 34) EmptyString.

(** The character [0x0a]. *)
Definition nl : string := String (ascii_of_nat 10) EmptyString.

(** ** net/textproto: canonical header keys *)

Module textproto.

Definition isLower (c : ascii) : bool :=
  (97 <=? nat_of_ascii c)%nat && (nat_of_ascii c <=? 122)%nat.

Definition isUpper (c : ascii) : bool :=
  (65 <=? nat_of_ascii c)%nat && (nat_of_ascii c <=? 90)%nat.

Definition isDigit (c : ascii) : bool :=
  (48 <=? nat_of_ascii c)%nat && (nat_of_ascii c <=? 57)%nat.

(** [c -= 'a' - 'A'] on a lower-case letter. *)
Definition toUpper (c : ascii) : ascii :=
  if isLower c then ascii_of_nat (nat_of_ascii c - 32) else c.

(** [c += 'a' - 'A'] on an upper-case letter. *)
Definition toLower (c : ascii) : ascii :=
  if isUpper c then ascii_of_nat (nat_of_ascii c + 32) else c.

(** The punctuation allowed in an HTTP token. *)
Definition tokenPunct : list ascii :=
  list_ascii_of_string "!#$%&'*+-.^_`|~".

(** [validHeaderFieldByte]: letters, digits and token punctuation. *)
Definition validHeaderFieldByte (c : ascii) : bool :=
  isLower c || isUpper c || isDigit c
  || existsb (Ascii.eqb c) tokenPunct.

Definition validHeaderFieldName (s : string) : bool :=
  forallb validHeaderFieldByte (list_ascii_of_string s).

(** The canonicalising loop: upper case at the start and after each
    dash, lower case elsewhere. *)
Fixpoint canonLoop (upper : bool) (s : string) : string :=
  match s with
  | EmptyString => EmptyString
  | String c s' =>
      let c' := if upper then toUpper c else toLower c in
      String c' (canonLoop (Ascii.eqb c' "-"%char) s')
  end.

(** [CanonicalMIMEHeaderKey]: a key with a byte that is no token byte
    is returned unchanged. *)
Definition CanonicalMIMEHeaderKey (s : string) : string :=
  if validHeaderFieldName s then canonLoop true s else s.

(** Two names that differ only in the case of their letters. *)
Fixpoint eqFold (s t : string) : bool :=
  match s, t with
  | EmptyString, EmptyString => true
  | String a s', String b t' => Ascii.eqb (toLower a) (toLower b) && eqFold s' t'
  | _, _ => false
  end.

End textproto.

(** ** net/http: headers, requests and the response writer *)

Module http.

(** [http.Header] is [map[string][]string]. *)
Abbreviation Header := (gmap string (list string)).

(** Indexing a Go map with a missing key yields the nil slice. *)
Definition index (h : Header) (k : string) : list string :=
  default [] (h !! k).

(** The comma-ok form [_, ok := h[k]]. *)
Definition has (h : Header) (k : string) : bool :=
  bool_decide (is_Some (h !! k)).

Definition Header_Set (k v : string) (h : Header) : Header :=
  <[textproto.CanonicalMIMEHeaderKey k := [v]]> h.

Definition Header_Add (k v : string) (h : Header) : Header :=
  <[textproto.CanonicalMIMEHeaderKey k :=
      (index h (textproto.CanonicalMIMEHeaderKey k) ++ [v])%list]> h.

(** One header line read: a line whose name is empty is skipped, every
    other line is stored under the canonical form of its name. *)
Definition readLine (h : Header) (kv : string * string) : Header :=
  if String.eqb (textproto.CanonicalMIMEHeaderKey (fst kv)) "" then h
  else Header_Add (fst kv) (snd kv) h.

(** [textproto.ReadMIMEHeader]: the header map built from the header lines
    of a request, in the order they arrive. *)
Definition readMIMEHeader (wire : list (string * string)) : Header :=
  fold_left readLine wire ∅.

Record Request := mkRequest {
  Method : string;
  URL_Path : string;
  Header_ : Header;
  Body : string
}.

(** The response writer: the header map stays mutable, the first
    [WriteHeader] fixes the status and the headers sent, [Write] appends
    to the body and sends status 200 first when none was sent. *)
Record ResponseWriter := mkResponseWriter {
  rw_header : Header;
  rw_wrote : option (Z * Header);
  rw_body : string
}.

Definition newResponseWriter : ResponseWriter :=
  {| rw_header := ∅; rw_wrote := None; rw_body := "" |}.

Definition SetHeader (k v : string) (w : ResponseWriter) : ResponseWriter :=
  {| rw_header := Header_Set k v (rw_header w);
     rw_wrote := rw_wrote w; rw_body := rw_body w |}.

Definition AddHeader (k v : string) (w : ResponseWriter) : ResponseWriter :=
  {| rw_header := Header_Add k v (rw_header w);
     rw_wrote := rw_wrote w; rw_body := rw_body w |}.

Definition WriteHeader (code : Z) (w : ResponseWriter) : ResponseWriter :=
  match rw_wrote w with
  | Some _ => w
  | None => {| rw_header := rw_header w;
               rw_wrote := Some (code, rw_header w);
               rw_body := rw_body w |}
  end.

Definition Write (b : string) (w : ResponseWriter) : ResponseWriter :=
  let w' := WriteHeader 200 w in
  {| rw_header := rw_header w'; rw_wrote := rw_wrote w';
     rw_body := rw_body w' +:+ b |}.

(** What the caller sees. *)
Definition status (w : ResponseWriter) : option Z := fst <$> rw_wrote w.

Definition sentHeader (w : ResponseWriter) (k : string) : list string :=
  match rw_wrote w with
  | Some (_, h) => index h k
  | None => []
  end.

(** [Header.Get]: the first value stored under the canonical form of the
    key, or the empty string. *)
Definition Header_Get (k : string) (h : Header) : string :=
  match index h (textproto.CanonicalMIMEHeaderKey k) with
  | [] => ""
  | v :: _ => v
  end.

Definition StatusUnauthorized : Z := 401.
Definition StatusOK : Z := 200.
Definition StatusBadRequest : Z := 400.
Definition StatusMethodNotAllowed : Z := 405.
Definition StatusInternalServerError : Z := 500.

End http.

Import http.

(** ** The gag package *)

Module gag.

(** *** Effects and handlers *)

(** The request an outbound [http.Client] sends. *)
Record OutboundRequest := mkOutbound {
  o_Method : string;
  o_Url : string;
  o_Body : option string;
  o_Header : Header
}.

Inductive Effect :=
| ClientDo (timeout : Z) (req : OutboundRequest)
| CloseRequestBody
| CloseResponseBody
| Say (line : string).

(** What a handler can change: the response writer it was given and the
    effects performed so far, oldest first. *)
Record World := mkWorld {
  rw : ResponseWriter;
  effects : list Effect
}.

Definition onWriter (f : ResponseWriter -> ResponseWriter) (s : World) : World :=
  {| rw := f (rw s); effects := effects s |}.

Definition perform (e : Effect) (s : World) : World :=
  {| rw := rw s; effects := (effects s ++ [e])%list |}.

Definition newWorld : World := {| rw := newResponseWriter; effects := [] |}.

Inductive Outcome :=
| Returned (s : World)
| Panic (msg : string) (s : World).

(** [http.Handler], by its [ServeHTTP(w, r)]. *)
Definition Handler := Request -> World -> Outcome.

(** [type Middleware func(http.Handler) http.Handler] *)
Definition Middleware := Handler -> Handler.

(** *** What the libraries and the network decide *)

Inductive ReadResult :=
| ReadOK (bodyBytes : string)
| ReadErr (err : string).

Inductive DoResult :=
| DoErr (err : string)
| DoResp (StatusCode : Z) (respHeader : Header) (body : ReadResult).

Record Lib := mkLib {
  (** gorilla/mux: does the path template match the request path *)
  pathMatch : string -> string -> bool;
  (** gorilla/mux: the handler of a router no route of which matches *)
  NotFoundHandler : Handler;
  (** [http.NewServeMux()], a multiplexer without patterns *)
  NewServeMux : Handler;
  (** the error of [http.NewRequestWithContext] for a method and a URL *)
  NewRequestErr : string -> string -> option string;
  (** [client.Do(req)] followed by [io.ReadAll(resp.Body)] *)
  RoundTrip : Z -> OutboundRequest -> DoResult
}.

(** *** condition.go *)

Record RouteRequest := mkRouteRequest {
  Url : string;
  HttpMethod : string;
  Timeout : Z;
  PassRequestBody : bool
}.

(** [type headerValue struct] *)
Record headerValueT := mkHeaderValue {
  Key : string;
  Value : string
}.

(** [middlewareChain] is its slice of middlewares; a nil pointer or a nil
    func is [None]. *)
Record Condition := mkCondition {
  httpMethod : string;
  routeRequest : option RouteRequest;
  header : string;
  headerValue : option headerValueT;
  path : string;
  handlerFunc : option Handler;
  middlewares : list Middleware
}.

Record Gag := mkGag {
  port : Z;
  conditions : list Condition
}.

(** [type Config struct] *)
Record Config := mkConfig {
  Port : Z
}.

(** [NewGag]: the configured port and an empty registry. *)
Definition NewGag (cfg : Config) : Gag :=
  {| port := Port cfg; conditions := [] |}.

(** [&Condition{}] *)
Definition emptyCondition : Condition :=
  {| httpMethod := ""; routeRequest := None; header := ""; headerValue := None;
     path := ""; handlerFunc := None; middlewares := [] |}.

Definition Condition_Method (m : string) (c : Condition) : Condition :=
  {| httpMethod := m; routeRequest := routeRequest c; header := header c;
     headerValue := headerValue c; path := path c;
     handlerFunc := handlerFunc c; middlewares := middlewares c |}.

Definition Condition_Path (p : string) (c : Condition) : Condition :=
  {| httpMethod := httpMethod c; routeRequest := routeRequest c; header := header c;
     headerValue := headerValue c; path := p;
     handlerFunc := handlerFunc c; middlewares := middlewares c |}.

Definition Condition_HasHeader (hd : string) (c : Condition) : Condition :=
  {| httpMethod := httpMethod c; routeRequest := routeRequest c; header := hd;
     headerValue := headerValue c; path := path c;
     handlerFunc := handlerFunc c; middlewares := middlewares c |}.

Definition Condition_HasHeaderValue (k v : string) (c : Condition) : Condition :=
  {| httpMethod := httpMethod c; routeRequest := routeRequest c; header := header c;
     headerValue := Some {| Key := k; Value := v |}; path := path c;
     handlerFunc := handlerFunc c; middlewares := middlewares c |}.

(** [append(([]Middleware)(nil), middlewares...)]: a copy, in the order of
    the arguments. *)
Definition Condition_Middlewares (ms : list Middleware) (c : Condition) : Condition :=
  {| httpMethod := httpMethod c; routeRequest := routeRequest c; header := header c;
     headerValue := headerValue c; path := path c;
     handlerFunc := handlerFunc c; middlewares := ms |}.

(** [Route] and [HandlerFunc] set the action, append the Condition to the
    registry and hand back a fresh Condition for the next chain. *)
Definition Condition_Route (rr : option RouteRequest) (cg : Condition * Gag)
  : Condition * Gag :=
  let c := {| httpMethod := httpMethod (fst cg); routeRequest := rr;
              header := header (fst cg); headerValue := headerValue (fst cg);
              path := path (fst cg); handlerFunc := handlerFunc (fst cg);
              middlewares := middlewares (fst cg) |} in
  (emptyCondition,
   {| port := port (snd cg); conditions := (conditions (snd cg) ++ [c])%list |}).

Definition Condition_HandlerFunc (hf : option Handler) (cg : Condition * Gag)
  : Condition * Gag :=
  let c := {| httpMethod := httpMethod (fst cg); routeRequest := routeRequest (fst cg);
              header := header (fst cg); headerValue := headerValue (fst cg);
              path := path (fst cg); handlerFunc := hf;
              middlewares := middlewares (fst cg) |} in
  (emptyCondition,
   {| port := port (snd cg); conditions := (conditions (snd cg) ++ [c])%list |}).

(** The loop of [middlewareChain.wrap], [i] being the index of the head of
    [ms] in the chain. *)
Fixpoint wrapLoop (i : nat) (ms : list Middleware) (handlerFunc0 h : Handler)
  : Handler :=
  match ms with
  | [] => h
  | m :: ms' =>
      wrapLoop (S i) ms' handlerFunc0
        (if Nat.eqb i 0 then m handlerFunc0 else m h)
  end.

Definition wrap (lib : Lib) (mc : list Middleware) (handlerFunc0 : Handler)
  (h : option Handler) : Handler :=
  wrapLoop 0 mc handlerFunc0 (default (NewServeMux lib) h).

(** *** gag.go: the reverse-proxy terminal action *)

(** [w.WriteHeader(http.StatusInternalServerError); w.Write([]byte(err.Error()))] *)
Definition writeError (err : string) (w : ResponseWriter) : ResponseWriter :=
  Write err (WriteHeader StatusInternalServerError w).

(** [w.Header().Set("Content-Type", "application/json");
    w.WriteHeader(resp.StatusCode); w.Write(bodyBytes)] *)
Definition relay (code : Z) (bodyBytes : string) (w : ResponseWriter)
  : ResponseWriter :=
  Write bodyBytes (WriteHeader code (SetHeader "Content-Type" "application/json" w)).

(** The closure given as terminal action when the Condition has no
    handlerFunc (the source writes it out twice, once under [wrap] and once
    without middlewares, with the same text).  Reading [c.routeRequest.Timeout]
    through a nil [routeRequest] panics.  Deferred closes run when the
    closure returns, last deferred first. *)
Definition routeHandler (lib : Lib) (c_routeRequest : option RouteRequest)
  : Handler :=
  fun r s =>
    match c_routeRequest with
    | None => Panic "invalid memory address or nil pointer dereference" s
    | Some rr =>
        if PassRequestBody rr then
          match NewRequestErr lib (HttpMethod rr) (Url rr) with
          | Some err =>
              Returned (perform CloseRequestBody (onWriter (writeError err) s))
          | None =>
              let req := {| o_Method := HttpMethod rr; o_Url := Url rr;
                            o_Body := Some (Body r);
                            o_Header := Header_Set "Content-Type" "application/json" ∅ |} in
              let s1 := perform (ClientDo (Timeout rr) req) s in
              match RoundTrip lib (Timeout rr) req with
              | DoErr err =>
                  Returned (perform CloseRequestBody (onWriter (writeError err) s1))
              | DoResp code _ (ReadErr err) =>
                  Returned (perform CloseRequestBody (perform CloseResponseBody
                              (onWriter (writeError err) s1)))
              | DoResp code _ (ReadOK bodyBytes) =>
                  Returned (perform CloseRequestBody (perform CloseResponseBody
                              (onWriter (relay code bodyBytes) s1)))
              end
          end
        else
          match NewRequestErr lib (HttpMethod rr) (Url rr) with
          | Some err => Returned (onWriter (writeError err) s)
          | None =>
              let req := {| o_Method := HttpMethod rr; o_Url := Url rr;
                            o_Body := None; o_Header := ∅ |} in
              let s1 := perform (ClientDo (Timeout rr) req) s in
              match RoundTrip lib (Timeout rr) req with
              | DoErr err => Returned (onWriter (writeError err) s1)
              | DoResp code _ (ReadErr err) =>
                  Returned (perform CloseResponseBody (onWriter (writeError err) s1))
              | DoResp code _ (ReadOK bodyBytes) =>
                  Returned (perform CloseResponseBody
                              (onWriter (relay code bodyBytes) s1))
              end
          end
    end.

(** *** gag.go: matching and dispatch *)

Fixpoint hasHeaderValue (value : string) (values : list string) : bool :=
  match values with
  | [] => false
  | v :: values' => if String.eqb v value then true else hasHeaderValue value values'
  end.

(** The closure registered by [mux.HandleFunc(c.path, ...)]: it calls [h] or
    returns without touching anything. *)
Definition dispatch (c : Condition) (h : Handler) : Handler :=
  fun r s =>
    if (negb (String.eqb (httpMethod c) "") && String.eqb (httpMethod c) (Method r))
       || String.eqb (httpMethod c) ""
    then
      if has (Header_ r) (header c) then
        match headerValue c with
        | Some hv =>
            if hasHeaderValue (Value hv) (index (Header_ r) (Key hv))
               && has (Header_ r) (Key hv)
            then h r s else Returned s
        | None => h r s
        end
      else if String.eqb (header c) "" then
        match headerValue c with
        | Some hv =>
            if hasHeaderValue (Value hv) (index (Header_ r) (Key hv))
            then h r s else Returned s
        | None => h r s
        end
      else Returned s
    else Returned s.

(** A gorilla/mux router: its routes in the order they were added.  The
    first route whose template matches serves the request. *)
Definition Router := list (string * Handler).

Definition Router_ServeHTTP (lib : Lib) (routes : Router) : Handler :=
  fun r s =>
    match List.find (fun rt => pathMatch lib (fst rt) (URL_Path r)) routes with
    | Some rt => snd rt r s
    | None => NotFoundHandler lib r s
    end.

(** The handler [h] that [configureMuxHandlers] builds before it registers
    the dispatch closure. *)
Definition conditionHandler (lib : Lib) (c : Condition) : Handler :=
  if (0 <? length (middlewares c))%nat then
    match handlerFunc c with
    | Some hf => wrap lib (middlewares c) hf None
    | None => wrap lib (middlewares c) (routeHandler lib (routeRequest c)) None
    end
  else
    match handlerFunc c with
    | Some hf => hf
    | None => routeHandler lib (routeRequest c)
    end.

Definition configureMuxHandlers (lib : Lib) (c : Condition) : Router :=
  [(path c, dispatch c (conditionHandler lib c))].

(** The router of [configureHandler]: one route per Condition, in
    registration order, each served by that Condition's own router. *)
Definition configureHandler (lib : Lib) (g : Gag) : Router :=
  map (fun c => (path c, Router_ServeHTTP lib (configureMuxHandlers lib c)))
      (conditions g).

(** What the gateway does with a request once it serves. *)
Definition gateway (lib : Lib) (g : Gag) : Handler :=
  Router_ServeHTTP lib (configureHandler lib g).

(** *** gag.go: validation and start-up *)

(** [nil], or the first error found. *)
Fixpoint validateConditions_loop (cs : list Condition) : option string :=
  match cs with
  | [] => None
  | c :: cs' =>
      if String.eqb (path c) "" then Some ("path cannot be " +:+ dq +:+ dq)
      else validateConditions_loop cs'
  end.

Definition validateConditions (g : Gag) : option string :=
  validateConditions_loop (conditions g).

(** What the operating system answers to [net.Listen("tcp", ":port")]: an
    error, or a listener whose address is a TCP address with a port or is
    not one. *)
Inductive ListenResult :=
| ListenErr (err : string)
| Listener (tcpPort : option Z).

Record OS := mkOS {
  net_Listen : Z -> ListenResult;
  (** the error [http.Serve] returns when its accept loop ends *)
  http_Serve : string
}.

Inductive StartupEvent :=
| EvListen (onPort : Z)
| EvPrintln (str : string)
| EvPrintf (str : string)
| EvAccept (mux : Router).

(** The log lines of [configureHandler], in order. *)
Definition configureHandler_log (g : Gag) : list StartupEvent :=
  EvPrintln ("total conditions found: " +:+ pretty (length (conditions g)))
  :: map (fun c => EvPrintln ("path " +:+ path c +:+ " registered")) (conditions g).

(** [listenHTTP], with [newServer] and [serve] inlined: the events, the
    error returned and the Gag as it is left. *)
Definition listenHTTP (lib : Lib) (os : OS) (g : Gag) (port0 : Z)
  : list StartupEvent * option string * Gag :=
  match net_Listen os port0 with
  | ListenErr err => ([EvListen port0], Some err, g)
  | Listener None => ([EvListen port0], Some "failed to obtain tcp address", g)
  | Listener (Some p) =>
      let g' := {| port := p mod 65536; conditions := conditions g |} in
      ((EvListen port0 :: configureHandler_log g'
        ++ [EvPrintln ("gag started on port " +:+ pretty (port g'));
            EvAccept (configureHandler lib g');
            EvPrintf ("err in http.Serve(): " +:+ http_Serve os +:+ nl)])%list,
       Some (http_Serve os), g')
  end.

Definition Serve (lib : Lib) (os : OS) (g : Gag)
  : list StartupEvent * option string * Gag :=
  match validateConditions g with
  | Some err => ([], Some err, g)
  | None => listenHTTP lib os g (port g)
  end.

(** Serving has started when the accept loop was entered. *)
Definition isAccept (e : StartupEvent) : bool :=
  match e with EvAccept _ => true | _ => false end.

End gag.

Import gag.

(** ** The checks of the Matcher, in the words of the specification *)

(** The method is set and differs from the request's. *)
Definition methodMismatch (c : Condition) (r : Request) : Prop :=
  httpMethod c ≠ "" ∧ httpMethod c ≠ Method r.

(** The required header is set and absent from the request. *)
Definition headerMissing (c : Condition) (r : Request) : Prop :=
  header c ≠ "" ∧ Header_ r !! header c = None.

(** The required value is set and the named header is absent or none of
    its values equals the expected one. *)
Definition headerValueMismatch (c : Condition) (r : Request) : Prop :=
  ∃ hv, headerValue c = Some hv ∧ Value hv ∉ index (Header_ r) (Key hv).

(** The same three checks as booleans that hold when the check passes. *)
Definition methodCheck (c : Condition) (r : Request) : bool :=
  String.eqb (httpMethod c) "" || String.eqb (httpMethod c) (Method r).

Definition headerCheck (c : Condition) (r : Request) : bool :=
  String.eqb (header c) "" || has (Header_ r) (header c).

Definition headerValueCheck (c : Condition) (r : Request) : bool :=
  match headerValue c with
  | None => true
  | Some hv => bool_decide (Value hv ∈ index (Header_ r) (Key hv))
  end.

Definition matched (c : Condition) (r : Request) : bool :=
  methodCheck c r && headerCheck c r && headerValueCheck c r.

(** The three checks pass, as a proposition on the Condition's fields. *)
Definition checksPass (c : Condition) (r : Request) : Prop :=
  (httpMethod c = "" ∨ httpMethod c = Method r)
  ∧ (header c = "" ∨ is_Some (Header_ r !! header c))
  ∧ (∀ hv, headerValue c = Some hv → Value hv ∈ index (Header_ r) (Key hv)).

(** ** Observing handlers *)

(** The terminal action of a Condition: its handlerFunc, or else the
    reverse-proxy closure over its routeRequest. *)
Definition terminalAction (lib : Lib) (c : Condition) : Handler :=
  match handlerFunc c with
  | Some hf => hf
  | None => routeHandler lib (routeRequest c)
  end.




(** The outbound request the proxy closure builds for a request. *)
Definition outboundRequest (rr : RouteRequest) (r : Request) : OutboundRequest :=
  if PassRequestBody rr then
    {| o_Method := HttpMethod rr; o_Url := Url rr; o_Body := Some (Body r);
       o_Header := {[ "Content-Type" := ["application/json"] ]} |}
  else
    {| o_Method := HttpMethod rr; o_Url := Url rr; o_Body := None; o_Header := ∅ |}.

(** A middleware of the shape of [sampleTimingMiddleware]: logic before the
    call of the next handler and logic after its return; a panic of the next
    handler skips the logic after. *)
Definition around (before after : Request -> World -> World) : Middleware :=
  fun next r s =>
    match next r (before r s) with
    | Returned s' => Returned (after r s')
    | Panic msg s' => Panic msg s'
    end.

(** The before-logic of a chain runs from the last registered middleware to
    the first, the after-logic from the first to the last. *)
Definition runBefores (chain : list ((Request -> World -> World) * (Request -> World -> World)))
  (r : Request) (s : World) : World :=
  fold_right (fun p acc => fst p r acc) s chain.

Definition runAfters (chain : list ((Request -> World -> World) * (Request -> World -> World)))
  (r : Request) (s : World) : World :=
  fold_left (fun acc p => snd p r acc) chain s.

(** ** The fixtures of gag_test.go *)

Module gag_test.

(** The JSON text [{"message":"sample handler!"}]. *)
Definition sampleBody : string :=
  "{" +:+ dq +:+ "message" +:+ dq +:+ ":" +:+ dq +:+ "sample handler!" +:+ dq +:+ "}".

(** [json.Marshal] of the sample response cannot fail, so only the last
    three calls of [sampleHandler] run. *)
Definition sampleHandler : Handler :=
  fun r s =>
    Returned (onWriter (fun w =>
      Write sampleBody (WriteHeader StatusOK
        (AddHeader "Content-Type" "application/json" w))) s).

(** The five Conditions of [TestMain], registered through the fluent calls. *)
Definition testGag : Gag :=
  let g0 := {| port := 8080; conditions := [] |} in
  let cg1 := Condition_HandlerFunc (Some sampleHandler)
               (Condition_Method "GET" (Condition_Path "/a" emptyCondition), g0) in
  let cg2 := Condition_HandlerFunc (Some sampleHandler)
               (Condition_Method "POST" (Condition_Path "/b" (fst cg1)), snd cg1) in
  let cg3 := Condition_HandlerFunc (Some sampleHandler)
               (Condition_HasHeader "X-Key"
                  (Condition_Method "GET" (Condition_Path "/c" (fst cg2))), snd cg2) in
  let cg4 := Condition_HandlerFunc (Some sampleHandler)
               (Condition_HasHeaderValue "X-Key" "someValue"
                  (Condition_Method "GET" (Condition_Path "/d" (fst cg3))), snd cg3) in
  let cg5 := Condition_HandlerFunc (Some sampleHandler)
               (Condition_HasHeaderValue "X-Key-Two" "someValue"
                  (Condition_HasHeader "X-Key"
                     (Condition_Method "GET" (Condition_Path "/e" (fst cg4)))), snd cg4) in
  snd cg5.

(** [http.NotFound]: the reply of a router or multiplexer without a
    matching route. *)
Definition notFound : Handler :=
  fun r s =>
    Returned (onWriter (fun w =>
      Write ("404 page not found" +:+ nl) (WriteHeader 404
        (SetHeader "X-Content-Type-Options" "nosniff"
           (SetHeader "Content-Type" "text/plain; charset=utf-8" w)))) s).

(** Libraries for the fixtures: templates without variables match the equal
    path, every outbound request can be built, and the backend given as
    argument answers. *)
Definition testLib (backend : Z -> OutboundRequest -> DoResult) : Lib :=
  {| pathMatch := String.eqb;
     NotFoundHandler := notFound;
     NewServeMux := notFound;
     NewRequestErr := fun _ _ => None;
     RoundTrip := backend |}.

Definition noBackend : Z -> OutboundRequest -> DoResult :=
  fun _ _ => DoErr "connection refused".

(** A request as the server hands it over: method, path, header lines,
    body.  The server promotes the Host header to a field of the request
    and removes it from the header map before a handler runs. *)
Definition request (m p : string) (wire : list (string * string)) (b : string)
  : Request :=
  {| Method := m; URL_Path := p;
     Header_ := delete "Host" (readMIMEHeader wire); Body := b |}.

(** The Conditions registered on [/b] and [/c]. *)
Definition condB : Condition :=
  {| httpMethod := "POST"; routeRequest := None; header := ""; headerValue := None;
     path := "/b"; handlerFunc := Some sampleHandler; middlewares := [] |}.

Definition condC : Condition :=
  {| httpMethod := "GET"; routeRequest := None; header := "X-Key"; headerValue := None;
     path := "/c"; handlerFunc := Some sampleHandler; middlewares := [] |}.

(** [condC] with its header name spelled in lower case. *)
Definition condCLower : Condition :=
  {| httpMethod := "GET"; routeRequest := None; header := "x-key"; headerValue := None;
     path := "/c"; handlerFunc := Some sampleHandler; middlewares := [] |}.

(** Middlewares and a handler that leave a line each in the effects. *)
Definition say (line : string) : Request -> World -> World :=
  fun _ s => perform (Say line) s.

Definition logging (name : string) : Middleware :=
  around (say (name +:+ " before")) (say (name +:+ " after")).

Definition sayingHandler (name : string) : Handler :=
  fun r s => Returned (say name r s).

Definition condAB : Condition :=
  {| httpMethod := ""; routeRequest := None; header := ""; headerValue := None;
     path := "/m"; handlerFunc := Some (sayingHandler "H");
     middlewares := [logging "A"; logging "B"] |}.

(** Proxy Conditions: a GET without the inbound body, a POST with it. *)
Definition routeGet : RouteRequest :=
  {| Url := "http://127.0.0.1:8081/demo"; HttpMethod := "GET"; Timeout := 0;
     PassRequestBody := false |}.

Definition routePost : RouteRequest :=
  {| Url := "http://127.0.0.1:8081/demo"; HttpMethod := "POST";
     Timeout := 2000000000; PassRequestBody := true |}.

Definition condGet : Condition :=
  {| httpMethod := "GET"; routeRequest := Some routeGet; header := "";
     headerValue := None; path := "/p"; handlerFunc := None; middlewares := [] |}.


(** The JSON texts [{"ok":true}] and [{"x":1}]. *)
Definition okBody : string := "{" +:+ dq +:+ "ok" +:+ dq +:+ ":true}".

Definition xBody : string := "{" +:+ dq +:+ "x" +:+ dq +:+ ":1}".

(** A backend that answers 201 with [okBody] and headers of its own. *)
Definition created : Z -> OutboundRequest -> DoResult :=
  fun _ _ =>
    DoResp 201 {[ "Content-Type" := ["text/html"]; "X-Backend" := ["b1"] ]}
           (ReadOK okBody).


(** Libraries under which no outbound request can be built. *)
Definition badUrlLib : Lib :=
  {| pathMatch := String.eqb;
     NotFoundHandler := notFound;
     NewServeMux := notFound;
     NewRequestErr := fun _ _ => Some "parse: missing protocol scheme";
     RoundTrip := noBackend |}.

(** Registries with a Condition that has neither action, and both. *)
Definition gagNeither : Gag :=
  {| port := 8080;
     conditions := [ {| httpMethod := ""; routeRequest := None; header := "";
                        headerValue := None; path := "/n"; handlerFunc := None;
                        middlewares := [] |} ] |}.

Definition gagBoth : Gag :=
  {| port := 8080;
     conditions := [ {| httpMethod := ""; routeRequest := Some routeGet; header := "";
                        headerValue := None; path := "/n";
                        handlerFunc := Some sampleHandler; middlewares := [] |} ] |}.

(** A registry with a Condition without path. *)
Definition gagNoPath : Gag :=
  {| port := 8080;
     conditions := [ condB;
                     {| httpMethod := ""; routeRequest := None; header := "";
                        headerValue := None; path := "";
                        handlerFunc := Some sampleHandler; middlewares := [] |} ] |}.

(** An operating system on which every port can be bound. *)
Definition testOS : OS :=
  {| net_Listen := fun p => Listener (Some p); http_Serve := "use of closed network connection" |}.

End gag_test.

Import gag_test.

(** ** The middlewares of examples/main.go *)

Module examples.

(** The JSON text [{"message":"authentication failed"}]. *)
Definition authFailedBody : string :=
  "{" +:+ dq +:+ "message" +:+ dq +:+ ":" +:+ dq +:+ "authentication failed"
  +:+ dq +:+ "}".

(** [w.WriteHeader(http.StatusUnauthorized); w.Write(res)] *)
Definition writeUnauthorized (w : ResponseWriter) : ResponseWriter :=
  Write authFailedBody (WriteHeader StatusUnauthorized w).

(** [TerribleSecurityProvider(password)]: [json.Marshal] of the fixed
    message cannot fail, so a request is either answered with 401 or handed
    to the next handler. *)
Definition TerribleSecurityProvider (password : string) : Middleware :=
  fun h r s =>
    if negb (String.eqb (Header_Get "X-Secret-Password" (Header_ r)) password)
    then Returned (onWriter writeUnauthorized s)
    else h r s.

End examples.

Import examples.

(** ** Lemmas on headers and on the dispatch closure *)

Lemma has_true (h : Header) (k : string) : has h k = true ↔ is_Some (h !! k).
Proof. unfold has. apply bool_decide_eq_true. Qed.

Lemma has_false (h : Header) (k : string) : has h k = false ↔ h !! k = None.
Proof.
  unfold has. rewrite bool_decide_eq_false, eq_None_not_Some. reflexivity.
Qed.

Lemma index_nonempty_has (h : Header) (k v : string) :
  v ∈ index h k → has h k = true.
Proof.
  unfold index. intros Hin. apply has_true.
  destruct (h !! k) as [vs|] eqn:E; [eauto | ].
  simpl in Hin. inversion Hin.
Qed.

Lemma hasHeaderValue_elem (value : string) (values : list string) :
  hasHeaderValue value values = true ↔ value ∈ values.
Proof.
  induction values as [|v values IH]; simpl.
  - split; [discriminate | intros H; inversion H].
  - destruct (String.eqb v value) eqn:E.
    + apply String.eqb_eq in E. subst v. split; [intros _; left | reflexivity].
    + apply String.eqb_neq in E. rewrite IH. split.
      * intros H. right. exact H.
      * intros H. inversion H; subst; [congruence | assumption].
Qed.

Lemma hasHeaderValue_bool_decide (value : string) (values : list string) :
  hasHeaderValue value values = bool_decide (value ∈ values).
Proof.
  destruct (hasHeaderValue value values) eqn:E; symmetry.
  - apply bool_decide_eq_true, hasHeaderValue_elem, E.
  - apply bool_decide_eq_false. rewrite <- hasHeaderValue_elem. congruence.
Qed.

(** The nested conditionals of the dispatch closure amount to one test. *)
Lemma dispatch_matched (c : Condition) (h : Handler) (r : Request) (s : World) :
  dispatch c h r s = if matched c r then h r s else Returned s.
Proof.
  unfold dispatch, matched, methodCheck, headerCheck, headerValueCheck.
  destruct (String.eqb (httpMethod c) "") eqn:Em; simpl.
  all: destruct (String.eqb (httpMethod c) (Method r)) eqn:Er; simpl; try reflexivity.
  all: destruct (has (Header_ r) (header c)) eqn:Eh; simpl;
       rewrite ?orb_true_r, ?orb_false_r.
  all: destruct (String.eqb (header c) "") eqn:E0; simpl; try reflexivity.
  all: destruct (headerValue c) as [hv|]; try reflexivity.
  all: rewrite hasHeaderValue_bool_decide.
  all: destruct (bool_decide (Value hv ∈ index (Header_ r) (Key hv))) eqn:Ev;
       simpl; try reflexivity.
  all: apply bool_decide_eq_true in Ev; apply index_nonempty_has in Ev;
       rewrite Ev; reflexivity.
Qed.

Lemma matched_false (c : Condition) (r : Request) :
  methodMismatch c r ∨ headerMissing c r ∨ headerValueMismatch c r →
  matched c r = false.
Proof.
  unfold matched, methodCheck, headerCheck, headerValueCheck.
  intros [[Hm Hr] | [[Hh Hn] | [hv [Hv Hin]]]].
  - apply String.eqb_neq in Hm, Hr. rewrite Hm, Hr. reflexivity.
  - apply String.eqb_neq in Hh. apply has_false in Hn. rewrite Hh, Hn.
    simpl. rewrite andb_false_r. reflexivity.
  - rewrite Hv. rewrite (bool_decide_eq_false_2 _ Hin).
    apply andb_false_r.
Qed.

(** The router of one Condition serves a request on the Condition's path
    with the dispatch closure. *)
Lemma configureMuxHandlers_serves (lib : Lib) (c : Condition) (r : Request) (s : World) :
  pathMatch lib (path c) (URL_Path r) = true →
  Router_ServeHTTP lib (configureMuxHandlers lib c) r s
  = dispatch c (conditionHandler lib c) r s.
Proof.
  intros Hp. unfold Router_ServeHTTP, configureMuxHandlers. simpl.
  rewrite Hp. reflexivity.
Qed.

(** ** C9: the header-value check *)

(** C9. The header-value check [hasHeaderValue expected values] succeeds
    exactly when some element of [values] is equal, as a string, to the
    expected value; it fails on the empty list and on a list all of whose
    elements differ from the expected value. *)
Theorem hasHeaderValue_iff_some_equal (expected : string) (values : list string) :
  (hasHeaderValue expected values = true ↔ ∃ v, v ∈ values ∧ v = expected)
  ∧ hasHeaderValue expected [] = false
  ∧ ((∀ v, v ∈ values → v ≠ expected) → hasHeaderValue expected values = false).
Proof.
  split; [| split].
  - rewrite hasHeaderValue_elem. split.
    + intros H. exists expected. split; [exact H | reflexivity].
    + intros [v [H ->]]. exact H.
  - reflexivity.
  - intros Hall. destruct (hasHeaderValue expected values) eqn:E; [| reflexivity].
    apply hasHeaderValue_elem in E. destruct (Hall expected E). reflexivity.
Qed.

(** No case folding and no trimming: neither a value in another case nor a
    padded one is accepted. *)
Example hasHeaderValue_exact :
  hasHeaderValue "someValue" ["somevalue"; " someValue"; "someValue "] = false
  ∧ hasHeaderValue "someValue" ["other"; "someValue"] = true.
Proof. split; reflexivity. Qed.

(** ** C3: a failed check leaves the response untouched *)

(** C3. For a request on the Condition's path for which the method check,
    the header-presence check or the header-value check fails, the handler
    installed for the Condition returns with the response writer and the
    effects exactly as it found them: no status, no header, no body. *)
Theorem failed_check_writes_nothing
  (lib : Lib) (c : Condition) (r : Request) (s : World) :
  pathMatch lib (path c) (URL_Path r) = true →
  methodMismatch c r ∨ headerMissing c r ∨ headerValueMismatch c r →
  Router_ServeHTTP lib (configureMuxHandlers lib c) r s = Returned s.
Proof.
  intros Hp Hfail.
  rewrite configureMuxHandlers_serves by exact Hp.
  rewrite dispatch_matched, (matched_false c r Hfail). reflexivity.
Qed.

Lemma failed_check_writes_nothing_witness :
  pathMatch (testLib noBackend) (path condB) (URL_Path (request "GET" "/b" [] "")) = true
  ∧ methodMismatch condB (request "GET" "/b" [] "")
  ∧ Router_ServeHTTP (testLib noBackend)
      (configureMuxHandlers (testLib noBackend) condB)
      (request "GET" "/b" [] "") newWorld = Returned newWorld.
Proof.
  assert (Hm : methodMismatch condB (request "GET" "/b" [] ""))
    by (split; discriminate).
  split; [reflexivity | split; [exact Hm |]].
  apply failed_check_writes_nothing; [reflexivity | left; exact Hm].
Defined.

(** ** C1 and C2: what the gateway answers to the requests of the tests *)

(** C1. [TestWrongHttpMethodResponse405] sends GET to [/b], registered for
    POST, and expects status 405 with a text body.  The gateway returns
    without having written anything: no status, no Content-Type, no body. *)
Theorem wrong_method_leaves_response_empty :
  ∃ s, gateway (testLib noBackend) testGag (request "GET" "/b" [] "") newWorld
       = Returned s
       ∧ status (rw s) = None
       ∧ sentHeader (rw s) "Content-Type" = []
       ∧ rw_body (rw s) = ""
       ∧ status (rw s) ≠ Some StatusMethodNotAllowed.
Proof.
  exists newWorld. repeat split; try reflexivity. discriminate.
Qed.

(** C2. [TestWrongHeaderResponse400] sends GET to [/c] without the header
    [X-Key] the Condition requires and expects status 400 with a text body.
    The gateway returns without having written anything; with the header
    the request reaches the handler. *)
Theorem missing_header_leaves_response_empty :
  (∃ s, gateway (testLib noBackend) testGag (request "GET" "/c" [] "") newWorld
        = Returned s
        ∧ status (rw s) = None
        ∧ rw_body (rw s) = ""
        ∧ status (rw s) ≠ Some StatusBadRequest)
  ∧ gateway (testLib noBackend) testGag
      (request "GET" "/c" [("X-Key", "someValue")] "") newWorld
    = sampleHandler (request "GET" "/c" [("X-Key", "someValue")] "") newWorld.
Proof.
  split.
  - exists newWorld. repeat split; try reflexivity. discriminate.
  - vm_compute. reflexivity.
Qed.

(** With the required header present, under any value, and no required
    value, a request with the right method reaches the Condition's handler. *)
Lemma dispatch_header_present (c : Condition) (h : Handler) (r : Request) (s : World) :
  methodCheck c r = true →
  is_Some (Header_ r !! header c) →
  headerValue c = None →
  dispatch c h r s = h r s.
Proof.
  intros Hm Hh Hv. rewrite dispatch_matched.
  unfold matched, headerCheck, headerValueCheck.
  apply has_true in Hh. rewrite Hm, Hh, Hv, orb_true_r. reflexivity.
Qed.

(** ** C4: the order of the middlewares *)

Lemma wrapLoop_fold (ms : list Middleware) (i : nat) (H h : Handler) :
  wrapLoop (S i) ms H h = fold_left (fun acc m => m acc) ms h.
Proof.
  revert i h. induction ms as [|m ms IH]; intros i h; simpl.
  - reflexivity.
  - apply IH.
Qed.

(** On a chain that is not empty, [wrap] folds the chain over the terminal
    handler from the left; the handler passed as [h] plays no part. *)
Lemma wrap_fold (lib : Lib) (m : Middleware) (ms : list Middleware)
  (H : Handler) (h : option Handler) :
  wrap lib (m :: ms) H h = fold_left (fun acc m' => m' acc) (m :: ms) H.
Proof. unfold wrap. simpl. apply wrapLoop_fold. Qed.

Lemma conditionHandler_fold (lib : Lib) (c : Condition) :
  conditionHandler lib c
  = fold_left (fun acc m => m acc) (middlewares c) (terminalAction lib c).
Proof.
  unfold conditionHandler, terminalAction.
  destruct (middlewares c) as [|m ms] eqn:E.
  - simpl. reflexivity.
  - replace (0 <? length (m :: ms))%nat with true by reflexivity.
    destruct (handlerFunc c); apply wrap_fold.
Qed.

(** A chain of [around] middlewares runs every before-logic, last
    registered first, then the terminal handler, then every after-logic,
    first registered first. *)
Lemma fold_around
  (chain : list ((Request -> World -> World) * (Request -> World -> World)))
  (H : Handler) (r : Request) :
  ∀ s s', H r (runBefores chain r s) = Returned s' →
    fold_left (fun acc m => m acc) (map (fun p => around (fst p) (snd p)) chain) H r s
    = Returned (runAfters chain r s').
Proof.
  induction chain as [|p chain IH] using rev_ind; intros s s' HH.
  - simpl in *. exact HH.
  - unfold runBefores, runAfters in *.
    rewrite map_app, fold_left_app. simpl.
    rewrite fold_right_app in HH. simpl in HH.
    unfold around at 1. pose proof (IH _ _ HH) as E.
    match goal with
    | |- match ?t with _ => _ end = _ =>
        replace t with (Returned (fold_left (fun acc q => snd q r acc) chain s'))
          by (symmetry; exact E)
    end.
    rewrite fold_left_app. reflexivity.
Qed.

(** C4. The handler built for a Condition is its middleware chain folded
    from the left over the terminal action.  For the chain [A; B], with A
    passed first to [Middlewares], it is [B (A H)]; a request then meets
    B's before-logic, A's before-logic, H, A's after-logic and B's
    after-logic, in this order, and chains of every length behave so. *)
Theorem middlewares_wrap_first_innermost (lib : Lib) (c0 : Condition) (g : Gag) :
  (∀ ms H,
     ∃ c, last (conditions (snd (Condition_HandlerFunc (Some H)
                                   (Condition_Middlewares ms c0, g)))) = Some c
          ∧ conditionHandler lib c = fold_left (fun acc m => m acc) ms H)
  ∧ (∀ A B H c, middlewares c = [A; B] → handlerFunc c = Some H →
       conditionHandler lib c = B (A H))
  ∧ (∀ bA aA bB aB H c r s s',
       middlewares c = [around bA aA; around bB aB] → handlerFunc c = Some H →
       H r (bA r (bB r s)) = Returned s' →
       conditionHandler lib c r s = Returned (aB r (aA r s')))
  ∧ (∀ chain c r s s',
       middlewares c = map (fun p => around (fst p) (snd p)) chain →
       terminalAction lib c r (runBefores chain r s) = Returned s' →
       conditionHandler lib c r s = Returned (runAfters chain r s')).
Proof.
  split; [| split; [| split]].
  - intros ms H. simpl. eexists. split.
    + apply last_snoc.
    + rewrite conditionHandler_fold. reflexivity.
  - intros A B H c Hms HH. rewrite conditionHandler_fold, Hms.
    unfold terminalAction. rewrite HH. reflexivity.
  - intros bA aA bB aB H c r s s' Hms HH Hrun.
    rewrite conditionHandler_fold, Hms. unfold terminalAction. rewrite HH.
    simpl. unfold around. rewrite Hrun. reflexivity.
  - intros chain c r s s' Hms Hrun.
    rewrite conditionHandler_fold, Hms. apply fold_around. exact Hrun.
Qed.

Lemma middlewares_wrap_first_innermost_witness :
  conditionHandler (testLib noBackend) condAB
  = logging "B" (logging "A" (sayingHandler "H"))
  ∧ conditionHandler (testLib noBackend) condAB (request "GET" "/m" [] "") newWorld
    = Returned (say "B after" (request "GET" "/m" [] "")
                 (say "A after" (request "GET" "/m" [] "")
                    {| rw := newResponseWriter;
                       effects := [Say "B before"; Say "A before"; Say "H"] |})).
Proof.
  destruct (middlewares_wrap_first_innermost (testLib noBackend) emptyCondition testGag)
    as [_ [H2 [H3 _]]].
  split.
  - apply H2; reflexivity.
  - apply (H3 (say "A before") (say "A after") (say "B before") (say "B after")
              (sayingHandler "H")); reflexivity.
Defined.

(** The effects a request leaves behind under the chain [A; B]. *)
Example middleware_trace :
  conditionHandler (testLib noBackend) condAB (request "GET" "/m" [] "") newWorld
  = Returned {| rw := newResponseWriter;
                effects := [Say "B before"; Say "A before"; Say "H";
                            Say "A after"; Say "B after"] |}.
Proof. reflexivity. Qed.

(** ** C5, C6, C7: the reverse-proxy terminal action *)

Lemma Header_Set_ContentType (v : string) (h : Header) :
  Header_Set "Content-Type" v h = <["Content-Type" := [v]]> h.
Proof. reflexivity. Qed.

(** The two branches of the proxy closure differ in the outbound request
    and in the close of the inbound body only. *)
Lemma routeHandler_cases (lib : Lib) (rr : RouteRequest) (r : Request) (s : World) :
  routeHandler lib (Some rr) r s
  = Returned
      ((if PassRequestBody rr then perform CloseRequestBody else id)
         match NewRequestErr lib (HttpMethod rr) (Url rr) with
         | Some err => onWriter (writeError err) s
         | None =>
             let s1 := perform (ClientDo (Timeout rr) (outboundRequest rr r)) s in
             match RoundTrip lib (Timeout rr) (outboundRequest rr r) with
             | DoErr err => onWriter (writeError err) s1
             | DoResp code _ (ReadErr err) =>
                 perform CloseResponseBody (onWriter (writeError err) s1)
             | DoResp code _ (ReadOK bodyBytes) =>
                 perform CloseResponseBody (onWriter (relay code bodyBytes) s1)
             end
         end).
Proof.
  unfold routeHandler, outboundRequest.
  destruct (PassRequestBody rr);
    destruct (NewRequestErr lib (HttpMethod rr) (Url rr)); try reflexivity.
  - rewrite Header_Set_ContentType, insert_empty.
    destruct (RoundTrip _ _ _) as [err | code hdr [b | err]]; reflexivity.
  - destruct (RoundTrip _ _ _) as [err | code hdr [b | err]]; reflexivity.
Qed.















(** ** C8: header names and letter case *)

Lemma toUpper_toLower (c : ascii) :
  textproto.toUpper (textproto.toLower c) = textproto.toUpper c.
Proof. destruct c as [[] [] [] [] [] [] [] []]; reflexivity. Qed.

Lemma validHeaderFieldByte_toLower (c : ascii) :
  textproto.validHeaderFieldByte (textproto.toLower c)
  = textproto.validHeaderFieldByte c.
Proof. destruct c as [[] [] [] [] [] [] [] []]; reflexivity. Qed.

Lemma eqFold_valid (s t : string) :
  textproto.eqFold s t = true →
  textproto.validHeaderFieldName s = textproto.validHeaderFieldName t.
Proof.
  revert t. induction s as [|a s IH]; intros [|b t] H; simpl in H;
    try discriminate; [reflexivity |].
  apply andb_prop in H as [Hab Hst]. apply Ascii.eqb_eq in Hab.
  unfold textproto.validHeaderFieldName in *. simpl.
  rewrite (IH t Hst).
  rewrite <- (validHeaderFieldByte_toLower a), Hab, validHeaderFieldByte_toLower.
  reflexivity.
Qed.

Lemma eqFold_canonLoop (s t : string) (upper : bool) :
  textproto.eqFold s t = true →
  textproto.canonLoop upper s = textproto.canonLoop upper t.
Proof.
  revert t upper. induction s as [|a s IH]; intros [|b t] upper H; simpl in H;
    try discriminate; [reflexivity |].
  apply andb_prop in H as [Hab Hst]. apply Ascii.eqb_eq in Hab.
  assert (Hc : (if upper then textproto.toUpper a else textproto.toLower a)
               = (if upper then textproto.toUpper b else textproto.toLower b)).
  { destruct upper; [| exact Hab].
    rewrite <- (toUpper_toLower a), Hab. apply toUpper_toLower. }
  simpl. rewrite Hc, (IH t _ Hst). reflexivity.
Qed.

(** Names that are tokens and differ in letter case only have one
    canonical form. *)
Lemma eqFold_canonical (s t : string) :
  textproto.validHeaderFieldName s = true →
  textproto.eqFold s t = true →
  textproto.CanonicalMIMEHeaderKey s = textproto.CanonicalMIMEHeaderKey t.
Proof.
  intros Hv He. unfold textproto.CanonicalMIMEHeaderKey.
  rewrite <- (eqFold_valid s t He), Hv. apply eqFold_canonLoop, He.
Qed.

Lemma readMIMEHeader_fold_case (wire1 wire2 : list (string * string)) :
  Forall2 (fun x y => textproto.validHeaderFieldName (fst x) = true
                      ∧ textproto.eqFold (fst x) (fst y) = true
                      ∧ snd x = snd y) wire1 wire2 →
  ∀ h : Header, fold_left readLine wire1 h = fold_left readLine wire2 h.
Proof.
  induction 1 as [| x y w1 w2 [Hv [He Hs]] _ IH]; intros h; simpl.
  - reflexivity.
  - unfold readLine at 2 4. unfold Header_Add.
    rewrite (eqFold_canonical _ _ Hv He), Hs. apply IH.
Qed.

(** C8, as the code has it.  The header checks look names up in the header
    map of the request, whose keys are the canonical forms of the names
    received.  Two requests whose header names are tokens and differ in
    letter case only are the same request to the gateway: the presence
    check and the value check of a Condition give the same outcome on
    them, and so does the dispatch closure. *)
Theorem header_lookup_exact_on_canonical_keys
  (c : Condition) (m p b : string) (wire1 wire2 : list (string * string)) :
  Forall2 (fun x y => textproto.validHeaderFieldName (fst x) = true
                      ∧ textproto.eqFold (fst x) (fst y) = true
                      ∧ snd x = snd y) wire1 wire2 →
  request m p wire1 b = request m p wire2 b
  ∧ headerCheck c (request m p wire1 b) = headerCheck c (request m p wire2 b)
  ∧ headerValueCheck c (request m p wire1 b)
    = headerValueCheck c (request m p wire2 b)
  ∧ (∀ h s, dispatch c h (request m p wire1 b) s
            = dispatch c h (request m p wire2 b) s).
Proof.
  intros Hw.
  assert (Hreq : request m p wire1 b = request m p wire2 b).
  { unfold request, readMIMEHeader.
    rewrite (readMIMEHeader_fold_case wire1 wire2 Hw ∅). reflexivity. }
  split; [exact Hreq |]. rewrite <- Hreq.
  split; [reflexivity | split; [reflexivity |]].
  intros h s. reflexivity.
Qed.

(** The Host line and a line without name leave no key in the header map
    of the request. *)
Example request_without_host :
  Header_ (request "GET" "/c" [("Host", "example.com"); ("", "x"); ("x-key", "v")] "")
  = {[ "X-Key" := ["v"] ]}.
Proof. vm_compute. reflexivity. Qed.

Lemma header_lookup_exact_on_canonical_keys_witness :
  request "GET" "/c" [("x-key", "v")] "" = request "GET" "/c" [("X-KEY", "v")] ""
  ∧ headerCheck condC (request "GET" "/c" [("x-key", "v")] "")
    = headerCheck condC (request "GET" "/c" [("X-KEY", "v")] "").
Proof.
  destruct (header_lookup_exact_on_canonical_keys condC "GET" "/c" ""
              [("x-key", "v")] [("X-KEY", "v")]) as [H1 [H2 _]].
  - constructor; [| constructor]. repeat split; reflexivity.
  - split; assumption.
Defined.

(** C8 as stated fails: the header [x-key: v] of a request satisfies the
    Condition configured with [X-Key] and does not satisfy the Condition
    configured with [x-key], which differs from it in the case of the
    configured name only. *)
Lemma configured_header_name_case_matters :
  textproto.eqFold (header condC) (header condCLower) = true
  ∧ headerCheck condC (request "GET" "/c" [("x-key", "v")] "") = true
  ∧ headerCheck condCLower (request "GET" "/c" [("x-key", "v")] "") = false
  ∧ Router_ServeHTTP (testLib noBackend) (configureMuxHandlers (testLib noBackend) condC)
      (request "GET" "/c" [("x-key", "v")] "") newWorld
    = sampleHandler (request "GET" "/c" [("x-key", "v")] "") newWorld
  ∧ Router_ServeHTTP (testLib noBackend)
      (configureMuxHandlers (testLib noBackend) condCLower)
      (request "GET" "/c" [("x-key", "v")] "") newWorld
    = Returned newWorld
  ∧ ¬ (∀ c1 c2 r, textproto.eqFold (header c1) (header c2) = true →
                  headerValue c1 = headerValue c2 →
                  headerCheck c1 r = headerCheck c2 r).
Proof.
  repeat split; try (vm_compute; reflexivity).
  intros H.
  specialize (H condC condCLower (request "GET" "/c" [("x-key", "v")] "")
                eq_refl eq_refl).
  vm_compute in H. discriminate.
Qed.

(** ** C10: validation before serving *)

Lemma validateConditions_loop_error (cs : list Condition) (err : string) :
  validateConditions_loop cs = Some err → err = "path cannot be " +:+ dq +:+ dq.
Proof.
  induction cs as [|c cs IH]; simpl; [discriminate |].
  destruct (String.eqb (path c) ""); [| exact IH].
  intros H. injection H as <-. reflexivity.
Qed.

Lemma validateConditions_loop_Some (cs : list Condition) :
  is_Some (validateConditions_loop cs) ↔ ∃ c, c ∈ cs ∧ path c = "".
Proof.
  induction cs as [|c cs IH]; simpl.
  - split; [intros [x Hx]; discriminate | intros [c [Hin _]]; inversion Hin].
  - destruct (String.eqb (path c) "") eqn:E.
    + apply String.eqb_eq in E. split; [| eauto].
      intros _. exists c. split; [left | exact E].
    + apply String.eqb_neq in E. rewrite IH. split.
      * intros [c' [Hin Hp]]. exists c'. split; [right; exact Hin | exact Hp].
      * intros [c' [Hin Hp]]. apply elem_of_cons in Hin as [-> | Hin].
        -- contradiction.
        -- exists c'. split; assumption.
Qed.

(** C10, as the code has it.  [Serve] validates first: when validation
    finds an error, [Serve] returns that error with no event at all, so
    without listening and without accepting, and leaves the Gag as it was;
    otherwise it goes on to listen.  Validation finds an error exactly when
    some registered Condition has the empty path; the actions of the
    Conditions play no part in it. *)
Theorem Serve_validates_paths_first (lib : Lib) (os : OS) (g : Gag) :
  (∀ err, validateConditions g = Some err → Serve lib os g = ([], Some err, g))
  ∧ (validateConditions g = None → Serve lib os g = listenHTTP lib os g (port g))
  ∧ (is_Some (validateConditions g) ↔ ∃ c, c ∈ conditions g ∧ path c = "")
  ∧ (∀ g', map path (conditions g') = map path (conditions g) →
           validateConditions g' = validateConditions g).
Proof.
  split; [| split; [| split]].
  - intros err H. unfold Serve. rewrite H. reflexivity.
  - intros H. unfold Serve. rewrite H. reflexivity.
  - apply validateConditions_loop_Some.
  - intros g'. unfold validateConditions.
    generalize (conditions g) as cs. generalize (conditions g') as cs'.
    induction cs' as [|c' cs' IH]; intros [|c cs] H; simpl in H;
      try discriminate; [reflexivity |].
    injection H as Hp Hrest. simpl. rewrite Hp.
    destruct (String.eqb (path c) ""); [reflexivity | apply IH, Hrest].
Qed.

Lemma Serve_validates_paths_first_witness :
  validateConditions gagNoPath = Some ("path cannot be " +:+ dq +:+ dq)
  ∧ Serve (testLib noBackend) testOS gagNoPath
    = ([], Some ("path cannot be " +:+ dq +:+ dq), gagNoPath).
Proof.
  split; [reflexivity |].
  destruct (Serve_validates_paths_first (testLib noBackend) testOS gagNoPath)
    as [H _].
  apply H. reflexivity.
Defined.

(** C10 as stated fails: a registry whose only Condition has neither
    action, and one whose only Condition has both, pass validation, and
    [Serve] goes on to listen and to accept. *)
Lemma validation_ignores_actions :
  (∃ c, conditions gagNeither = [c] ∧ handlerFunc c = None ∧ routeRequest c = None)
  ∧ validateConditions gagNeither = None
  ∧ existsb isAccept (fst (fst (Serve (testLib noBackend) testOS gagNeither))) = true
  ∧ (∃ c, conditions gagBoth = [c] ∧ is_Some (handlerFunc c) ∧ is_Some (routeRequest c))
  ∧ validateConditions gagBoth = None
  ∧ existsb isAccept (fst (fst (Serve (testLib noBackend) testOS gagBoth))) = true.
Proof.
  repeat split; try reflexivity.
  - eexists. repeat split; reflexivity.
  - eexists. repeat split; eauto.
Qed.

(** ** Further properties of the dispatch closure and of the routers *)

(** The dispatch closure calls the handler exactly when the method is unset
    or equal to the request's, the header is unset or a key of the
    request's header map, and the required value, if any, is among the
    values stored under its key; in every other case it returns with the
    World untouched. *)
Theorem dispatch_serves_iff_checks_pass
  (c : Condition) (h : Handler) (r : Request) (s : World) :
  (checksPass c r → dispatch c h r s = h r s)
  ∧ (¬ checksPass c r → dispatch c h r s = Returned s).
Proof.
  rewrite dispatch_matched.
  assert (Hiff : matched c r = true ↔ checksPass c r).
  { unfold matched, methodCheck, headerCheck, headerValueCheck, checksPass.
    rewrite !andb_true_iff, !orb_true_iff, !String.eqb_eq, has_true.
    split.
    - intros [[Hm Hh] Hv]. split; [exact Hm | split; [exact Hh |]].
      intros hv Ehv. rewrite Ehv in Hv. apply bool_decide_eq_true in Hv. exact Hv.
    - intros [Hm [Hh Hw]]. split; [split; [exact Hm | exact Hh] |].
      destruct (headerValue c) as [hv|]; [| reflexivity].
      apply bool_decide_eq_true. apply Hw. reflexivity. }
  split.
  - intros Hp. apply Hiff in Hp. rewrite Hp. reflexivity.
  - intros Hn. destruct (matched c r) eqn:E; [| reflexivity].
    exfalso. apply Hn, Hiff. reflexivity.
Qed.

Lemma dispatch_serves_iff_checks_pass_witness :
  dispatch condC sampleHandler (request "GET" "/c" [("x-key", "any")] "") newWorld
  = sampleHandler (request "GET" "/c" [("x-key", "any")] "") newWorld
  ∧ dispatch condC sampleHandler (request "PUT" "/c" [("x-key", "any")] "") newWorld
    = Returned newWorld.
Proof.
  split.
  - apply (dispatch_serves_iff_checks_pass condC sampleHandler
             (request "GET" "/c" [("x-key", "any")] "") newWorld).
    split; [right; reflexivity | split; [right; vm_compute; eauto |]].
    intros hv E. discriminate E.
  - apply (dispatch_serves_iff_checks_pass condC sampleHandler
             (request "PUT" "/c" [("x-key", "any")] "") newWorld).
    intros H. destruct H as [[Hm | Hm] _]; discriminate Hm.
Defined.

(** The outer router hands a request to the router of the first registered
    Condition whose path matches. *)
Lemma gateway_route (lib : Lib) (cs : list Condition) (r : Request) (s : World) :
  Router_ServeHTTP lib
    (map (fun c => (path c, Router_ServeHTTP lib (configureMuxHandlers lib c))) cs) r s
  = match List.find (fun c => pathMatch lib (path c) (URL_Path r)) cs with
    | Some c => Router_ServeHTTP lib (configureMuxHandlers lib c) r s
    | None => NotFoundHandler lib r s
    end.
Proof.
  unfold Router_ServeHTTP at 1.
  induction cs as [|c cs IH]; simpl; [reflexivity |].
  destruct (pathMatch lib (path c) (URL_Path r)); [reflexivity | exact IH].
Qed.

Lemma find_skip {A : Type} (f : A → bool) (l1 l2 : list A) (x : A) :
  (∀ y, y ∈ l1 → f y = false) → f x = true →
  List.find f (l1 ++ x :: l2) = Some x.
Proof.
  intros Hl1 Hx. induction l1 as [|y l1 IH]; simpl.
  - rewrite Hx. reflexivity.
  - rewrite (Hl1 y) by left. apply IH. intros z Hz. apply Hl1. right. exact Hz.
Qed.


Lemma gateway_dispatches_first_match
  (lib : Lib) (g : Gag) (cs1 cs2 : list Condition) (c : Condition)
  (r : Request) (s : World) :
  conditions g = (cs1 ++ c :: cs2)%list →
  (∀ c', c' ∈ cs1 → pathMatch lib (path c') (URL_Path r) = false) →
  pathMatch lib (path c) (URL_Path r) = true →
  gateway lib g r s = dispatch c (conditionHandler lib c) r s.
Proof.
  intros Hcs Hbefore Hc.
  unfold gateway, configureHandler. rewrite gateway_route, Hcs.
  rewrite (find_skip (fun c0 => pathMatch lib (path c0) (URL_Path r)) cs1 cs2 c Hbefore Hc).
  apply configureMuxHandlers_serves, Hc.
Qed.

(** Among Conditions registered on paths that match a request, only the
    first registered one is consulted: the gateway runs its dispatch
    closure, whatever Conditions follow it.  When its checks fail the
    request is left unanswered even if a later Condition on the same path
    would have served it. *)
Theorem gateway_first_matching_path_wins
  (lib : Lib) (g : Gag) (cs1 cs2 : list Condition) (c : Condition)
  (r : Request) (s : World) :
  conditions g = (cs1 ++ c :: cs2)%list →
  (∀ c', c' ∈ cs1 → pathMatch lib (path c') (URL_Path r) = false) →
  pathMatch lib (path c) (URL_Path r) = true →
  gateway lib g r s = dispatch c (conditionHandler lib c) r s
  ∧ (matched c r = false → gateway lib g r s = Returned s).
Proof.
  intros Hcs Hbefore Hc.
  pose proof (gateway_dispatches_first_match lib g cs1 cs2 c r s Hcs Hbefore Hc) as E.
  split; [exact E |].
  intros Hm. rewrite E, dispatch_matched, Hm. reflexivity.
Qed.

Lemma gateway_first_matching_path_wins_witness :
  matched (Condition_Method "GET" condB) (request "GET" "/b" [] "") = true
  ∧ gateway (testLib noBackend)
      {| port := 8080; conditions := [condC; condB; Condition_Method "GET" condB] |}
      (request "GET" "/b" [] "") newWorld
    = Returned newWorld.
Proof.
  split; [reflexivity |].
  apply (gateway_first_matching_path_wins (testLib noBackend)
           {| port := 8080; conditions := [condC; condB; Condition_Method "GET" condB] |}
           [condC] [Condition_Method "GET" condB] condB).
  - reflexivity.
  - intros c' Hc'. apply list_elem_of_singleton in Hc'. subst c'. reflexivity.
  - reflexivity.
  - reflexivity.
Defined.



(** ** Further properties of the terminal action and of [wrap] *)

Lemma fold_around_panic
  (chain : list ((Request -> World -> World) * (Request -> World -> World)))
  (H : Handler) (r : Request) :
  ∀ s msg s', H r (runBefores chain r s) = Panic msg s' →
    fold_left (fun acc m => m acc) (map (fun p => around (fst p) (snd p)) chain) H r s
    = Panic msg s'.
Proof.
  induction chain as [|p chain IH] using rev_ind; intros s msg s' HH.
  - simpl in *. exact HH.
  - unfold runBefores in *.
    rewrite map_app, fold_left_app. simpl.
    rewrite fold_right_app in HH. simpl in HH.
    unfold around at 1. pose proof (IH _ _ _ HH) as E.
    match goal with
    | |- match ?t with _ => _ end = _ =>
        replace t with (Panic msg s') by (symmetry; exact E)
    end.
    reflexivity.
Qed.

(** A Condition registered with neither action panics on every request it
    matches: the proxy closure dereferences the nil routeRequest before it
    writes anything.  Under a chain of [around] middlewares every
    before-logic has run by then and no after-logic runs. *)
Theorem actionless_condition_panics
  (lib : Lib) (c : Condition)
  (chain : list ((Request -> World -> World) * (Request -> World -> World)))
  (r : Request) (s : World) :
  handlerFunc c = None →
  routeRequest c = None →
  middlewares c = map (fun p => around (fst p) (snd p)) chain →
  pathMatch lib (path c) (URL_Path r) = true →
  matched c r = true →
  Router_ServeHTTP lib (configureMuxHandlers lib c) r s
  = Panic "invalid memory address or nil pointer dereference" (runBefores chain r s).
Proof.
  intros Hh Hr Hms Hp Hm.
  rewrite configureMuxHandlers_serves by exact Hp.
  rewrite dispatch_matched, Hm, conditionHandler_fold, Hms.
  apply fold_around_panic. unfold terminalAction. rewrite Hh, Hr. reflexivity.
Qed.

Lemma actionless_condition_panics_witness :
  gateway (testLib noBackend) gagNeither (request "GET" "/n" [] "") newWorld
  = Panic "invalid memory address or nil pointer dereference" newWorld.
Proof.
  apply (actionless_condition_panics (testLib noBackend)
           {| httpMethod := ""; routeRequest := None; header := "";
              headerValue := None; path := "/n"; handlerFunc := None;
              middlewares := [] |} [] (request "GET" "/n" [] "") newWorld);
    reflexivity.
Defined.

(** When a Condition has a handlerFunc, its routeRequest plays no part:
    the handler built is the chain folded over the handlerFunc, whatever
    the routeRequest and whatever the libraries and the network do. *)
Theorem handlerFunc_shadows_routeRequest
  (lib lib' : Lib) (c c' : Condition) (hf : Handler) :
  handlerFunc c = Some hf →
  handlerFunc c' = Some hf →
  middlewares c' = middlewares c →
  conditionHandler lib c = conditionHandler lib' c'
  ∧ conditionHandler lib c = fold_left (fun acc m => m acc) (middlewares c) hf.
Proof.
  intros Hc Hc' Hms.
  rewrite !conditionHandler_fold, Hms. unfold terminalAction.
  rewrite Hc, Hc'. split; reflexivity.
Qed.

Lemma handlerFunc_shadows_routeRequest_witness :
  conditionHandler (testLib created)
    {| httpMethod := ""; routeRequest := Some routeGet; header := "";
       headerValue := None; path := "/n";
       handlerFunc := Some sampleHandler; middlewares := [] |}
  = conditionHandler badUrlLib condB
  ∧ conditionHandler (testLib created)
      {| httpMethod := ""; routeRequest := Some routeGet; header := "";
         headerValue := None; path := "/n";
         handlerFunc := Some sampleHandler; middlewares := [] |}
    = sampleHandler.
Proof.
  destruct (handlerFunc_shadows_routeRequest (testLib created) badUrlLib
              {| httpMethod := ""; routeRequest := Some routeGet; header := "";
                 headerValue := None; path := "/n";
                 handlerFunc := Some sampleHandler; middlewares := [] |}
              condB sampleHandler eq_refl eq_refl eq_refl) as [H1 H2].
  split; [exact H1 | exact H2].
Defined.

(** [wrap] on an empty chain does not return the terminal handler: it
    returns the handler passed as [h], or a fresh multiplexer without
    patterns when [h] is nil.  On a chain that is not empty the result does
    not depend on [h] at all, and when the last middleware ignores the
    handler it wraps, not on the terminal handler either. *)
Theorem wrap_empty_chain_drops_terminal (lib : Lib) (H h : Handler) :
  wrap lib [] H (Some h) = h
  ∧ wrap lib [] H None = NewServeMux lib
  ∧ (∀ m ms h1 h2, wrap lib (m :: ms) H h1 = wrap lib (m :: ms) H h2)
  ∧ (∀ m ms H' h1, (∀ x y, m x = m y) →
        wrap lib (ms ++ [m]) H h1 = wrap lib (ms ++ [m]) H' h1).
Proof.
  split; [reflexivity | split; [reflexivity | split]].
  - intros m ms h1 h2. rewrite !wrap_fold. reflexivity.
  - intros m ms H' h1 Hm.
    destruct ms as [|m0 ms]; simpl.
    + unfold wrap. simpl. apply Hm.
    + rewrite !wrap_fold. simpl. rewrite !fold_left_app. simpl. apply Hm.
Qed.

(** ** Further properties of the reverse-proxy closure *)


(** Of the inbound request the proxy closure uses the body only, and only
    when [PassRequestBody] is set: two requests with the same body, or any
    two requests when the body is not passed, are handled alike whatever
    their methods, paths and headers. *)
Theorem proxy_uses_only_the_inbound_body
  (lib : Lib) (rr : RouteRequest) (r r' : Request) (s : World) :
  PassRequestBody rr = false ∨ Body r = Body r' →
  outboundRequest rr r = outboundRequest rr r'
  ∧ routeHandler lib (Some rr) r s = routeHandler lib (Some rr) r' s.
Proof.
  intros H.
  assert (E : outboundRequest rr r = outboundRequest rr r').
  { unfold outboundRequest. destruct H as [-> | ->]; [reflexivity |].
    reflexivity. }
  split; [exact E |]. rewrite !routeHandler_cases, E. reflexivity.
Qed.

Lemma proxy_uses_only_the_inbound_body_witness :
  routeHandler (testLib created) (Some routePost)
    (request "POST" "/q" [("Authorization", "Bearer t")] xBody) newWorld
  = routeHandler (testLib created) (Some routePost)
      (request "PUT" "/elsewhere" [] xBody) newWorld
  ∧ routeHandler (testLib created) (Some routeGet)
      (request "GET" "/p" [("Cookie", "a=b")] "ignored") newWorld
    = routeHandler (testLib created) (Some routeGet)
        (request "DELETE" "/p" [] "") newWorld.
Proof.
  split.
  - apply (proxy_uses_only_the_inbound_body (testLib created) routePost).
    right. reflexivity.
  - apply (proxy_uses_only_the_inbound_body (testLib created) routeGet).
    left. reflexivity.
Defined.



(** ** The password middleware of examples/main.go *)

(** Registered last, [TerribleSecurityProvider] is the outermost layer: a
    request whose first [X-Secret-Password] value (the empty string when
    the header is absent) differs from the password is answered with 401
    and nothing else runs, neither the other middlewares nor the terminal
    action; a request with the password goes on to the rest of the chain. *)
Theorem TerribleSecurityProvider_registered_last
  (lib : Lib) (c : Condition) (ms : list Middleware) (password : string)
  (r : Request) (s : World) :
  middlewares c = (ms ++ [TerribleSecurityProvider password])%list →
  (Header_Get "X-Secret-Password" (Header_ r) ≠ password →
     conditionHandler lib c r s = Returned (onWriter writeUnauthorized s))
  ∧ (Header_Get "X-Secret-Password" (Header_ r) = password →
       conditionHandler lib c r s
       = fold_left (fun acc m => m acc) ms (terminalAction lib c) r s).
Proof.
  intros Hms. rewrite conditionHandler_fold, Hms, fold_left_app. simpl.
  unfold TerribleSecurityProvider. split; intros H.
  - apply String.eqb_neq in H. rewrite H. reflexivity.
  - apply String.eqb_eq in H. rewrite H. reflexivity.
Qed.

Lemma TerribleSecurityProvider_registered_last_witness :
  conditionHandler (testLib created)
    (Condition_Middlewares [logging "timing"; TerribleSecurityProvider "some"] condGet)
    (request "GET" "/p" [] "") newWorld
  = Returned (onWriter writeUnauthorized newWorld)
  ∧ conditionHandler (testLib created)
      (Condition_Middlewares [logging "timing"; TerribleSecurityProvider "some"] condGet)
      (request "GET" "/p" [("x-secret-password", "some")] "") newWorld
    = logging "timing" (routeHandler (testLib created) (Some routeGet))
        (request "GET" "/p" [("x-secret-password", "some")] "") newWorld.
Proof.
  destruct (TerribleSecurityProvider_registered_last (testLib created)
              (Condition_Middlewares [logging "timing"; TerribleSecurityProvider "some"]
                 condGet)
              [logging "timing"] "some" (request "GET" "/p" [] "") newWorld eq_refl)
    as [H1 _].
  destruct (TerribleSecurityProvider_registered_last (testLib created)
              (Condition_Middlewares [logging "timing"; TerribleSecurityProvider "some"]
                 condGet)
              [logging "timing"] "some"
              (request "GET" "/p" [("x-secret-password", "some")] "") newWorld eq_refl)
    as [_ H2].
  split.
  - apply H1. vm_compute. discriminate.
  - apply H2. vm_compute. reflexivity.
Defined.

(** Registered first, [TerribleSecurityProvider] is the innermost layer:
    for a request without the password the middlewares registered after it
    still run, their before-logic ahead of the 401 and their after-logic
    behind it; only the terminal action is not reached. *)
Theorem TerribleSecurityProvider_registered_first
  (lib : Lib) (c : Condition)
  (chain : list ((Request -> World -> World) * (Request -> World -> World)))
  (password : string) (r : Request) (s : World) :
  middlewares c
  = TerribleSecurityProvider password :: map (fun p => around (fst p) (snd p)) chain →
  Header_Get "X-Secret-Password" (Header_ r) ≠ password →
  conditionHandler lib c r s
  = Returned (runAfters chain r (onWriter writeUnauthorized (runBefores chain r s))).
Proof.
  intros Hms Hpw. rewrite conditionHandler_fold, Hms. simpl.
  apply fold_around. unfold TerribleSecurityProvider.
  apply String.eqb_neq in Hpw. rewrite Hpw. reflexivity.
Qed.

Lemma TerribleSecurityProvider_registered_first_witness :
  ∃ s', conditionHandler (testLib created)
          (Condition_Middlewares [TerribleSecurityProvider "some"; logging "timing"]
             condGet)
          (request "GET" "/p" [("X-Secret-Password", "wrong")] "") newWorld
        = Returned s'
        ∧ effects s' = [Say "timing before"; Say "timing after"]
        ∧ status (rw s') = Some StatusUnauthorized
        ∧ rw_body (rw s') = authFailedBody.
Proof.
  eexists. split.
  - apply (TerribleSecurityProvider_registered_first (testLib created)
             (Condition_Middlewares [TerribleSecurityProvider "some"; logging "timing"]
                condGet)
             [(say "timing before", say "timing after")] "some").
    + reflexivity.
    + vm_compute. discriminate.
  - repeat split; reflexivity.
Defined.

(** ** Start-up *)

(** When the registry is valid and the port cannot be bound, or the
    listener's address is no TCP address, [Serve] returns the error after
    the one attempt to listen: no Condition is configured or logged, the
    accept loop is not entered and the Gag is left as it was. *)
Theorem Serve_listen_failure (lib : Lib) (os : OS) (g : Gag) (err : string) :
  validateConditions g = None →
  net_Listen os (port g) = ListenErr err
  ∨ (net_Listen os (port g) = Listener None ∧ err = "failed to obtain tcp address") →
  Serve lib os g = ([EvListen (port g)], Some err, g).
Proof.
  intros Hv H. unfold Serve, listenHTTP. rewrite Hv.
  destruct H as [-> | [-> ->]]; reflexivity.
Qed.

Lemma Serve_listen_failure_witness :
  Serve (testLib noBackend)
    {| net_Listen := fun _ => ListenErr "address already in use"; http_Serve := "" |}
    testGag
  = ([EvListen 8080], Some "address already in use", testGag).
Proof.
  apply Serve_listen_failure; [reflexivity | left; reflexivity].
Defined.



(** The outcome of validation does not depend on the order in which the
    Conditions were registered, and the only error it can report is the
    text [path cannot be ""], however many Conditions lack a path. *)
Theorem validateConditions_order_irrelevant (g g' : Gag) :
  conditions g ≡ₚ conditions g' →
  validateConditions g = validateConditions g'
  ∧ (∀ err, validateConditions g = Some err → err = "path cannot be " +:+ dq +:+ dq).
Proof.
  intros Hperm. unfold validateConditions. split.
  - destruct (validateConditions_loop (conditions g)) as [e|] eqn:E;
      destruct (validateConditions_loop (conditions g')) as [e'|] eqn:E'.
    + rewrite (validateConditions_loop_error _ _ E),
              (validateConditions_loop_error _ _ E'). reflexivity.
    + assert (H : is_Some (validateConditions_loop (conditions g))) by (rewrite E; eauto).
      apply validateConditions_loop_Some in H as [c [Hin Hp]].
      rewrite Hperm in Hin.
      assert (H' : is_Some (validateConditions_loop (conditions g')))
        by (apply validateConditions_loop_Some; eauto).
      rewrite E' in H'. destruct H' as [x Hx]. discriminate.
    + assert (H : is_Some (validateConditions_loop (conditions g'))) by (rewrite E'; eauto).
      apply validateConditions_loop_Some in H as [c [Hin Hp]].
      rewrite <- Hperm in Hin.
      assert (H' : is_Some (validateConditions_loop (conditions g)))
        by (apply validateConditions_loop_Some; eauto).
      rewrite E in H'. destruct H' as [x Hx]. discriminate.
    + reflexivity.
  - intros err. apply validateConditions_loop_error.
Qed.

Lemma validateConditions_order_irrelevant_witness :
  validateConditions gagNoPath
  = validateConditions {| port := 1; conditions := rev (conditions gagNoPath) |}.
Proof.
  apply (validateConditions_order_irrelevant gagNoPath
           {| port := 1; conditions := rev (conditions gagNoPath) |}).
  simpl. apply Permutation_swap.
Defined.

(** ** The fluent calls, end to end *)

(** A chain [Path(p).Method(m).HasHeader(k).HandlerFunc(h, g)] started on a
    fresh Condition leaves a registry that answers a request on [p], when
    no Condition registered before matches the path, with [h] if the method
    is [m] (or [m] is empty) and the header [k] is present (or [k] is
    empty), and not at all otherwise.  The chain hands back a fresh
    Condition, so nothing of [m] and [k] reaches the Condition that a
    following [Path(p2).HandlerFunc(h2, g)] registers: it serves every
    request on [p2] that the earlier Conditions do not match. *)
Theorem fluent_chain_end_to_end
  (lib : Lib) (g : Gag) (p m k p2 : string) (h h2 : Handler) (r r2 : Request)
  (s : World) :
  let cg := Condition_HandlerFunc (Some h)
              (Condition_HasHeader k (Condition_Method m
                 (Condition_Path p emptyCondition)), g) in
  let cg2 := Condition_HandlerFunc (Some h2) (Condition_Path p2 (fst cg), snd cg) in
  (∀ c', c' ∈ conditions g → pathMatch lib (path c') (URL_Path r) = false) →
  pathMatch lib p (URL_Path r) = true →
  (∀ c', c' ∈ conditions g → pathMatch lib (path c') (URL_Path r2) = false) →
  pathMatch lib p (URL_Path r2) = false →
  pathMatch lib p2 (URL_Path r2) = true →
  gateway lib (snd cg) r s
  = (if (String.eqb m "" || String.eqb m (Method r))
        && (String.eqb k "" || has (Header_ r) k)
     then h r s else Returned s)
  ∧ gateway lib (snd cg2) r s = gateway lib (snd cg) r s
  ∧ gateway lib (snd cg2) r2 s = h2 r2 s.
Proof.
  intros cg cg2 Hg Hp Hg2 Hp' Hp2.
  set (c := {| httpMethod := m; routeRequest := None; header := k;
               headerValue := None; path := p; handlerFunc := Some h;
               middlewares := [] |}).
  set (c2 := {| httpMethod := ""; routeRequest := None; header := "";
                headerValue := None; path := p2; handlerFunc := Some h2;
                middlewares := [] |}).
  assert (E1 : gateway lib (snd cg) r s = dispatch c h r s).
  { apply (gateway_dispatches_first_match lib (snd cg) (conditions g) [] c r s);
      [reflexivity | exact Hg | exact Hp]. }
  assert (E2 : gateway lib (snd cg2) r s = dispatch c h r s).
  { apply (gateway_dispatches_first_match lib (snd cg2) (conditions g) [c2] c r s);
      [| exact Hg | exact Hp].
    simpl. rewrite <- app_assoc. reflexivity. }
  assert (E3 : gateway lib (snd cg2) r2 s = dispatch c2 h2 r2 s).
  { apply (gateway_dispatches_first_match lib (snd cg2)
             (conditions g ++ [c]) [] c2 r2 s); [reflexivity | | exact Hp2].
    intros c' Hc'. apply elem_of_app in Hc' as [Hc' | Hc'].
    - apply Hg2, Hc'.
    - apply list_elem_of_singleton in Hc'. subst c'. exact Hp'. }
  split; [| split].
  - rewrite E1, dispatch_matched.
    unfold matched, methodCheck, headerCheck, headerValueCheck. simpl.
    rewrite andb_true_r. reflexivity.
  - rewrite E1, E2. reflexivity.
  - rewrite E3, dispatch_matched. reflexivity.
Qed.

Lemma fluent_chain_end_to_end_witness :
  gateway (testLib noBackend)
    (snd (Condition_HandlerFunc (Some sampleHandler)
            (Condition_HasHeader "X-Key" (Condition_Method "GET"
               (Condition_Path "/c" emptyCondition)), NewGag {| Port := 8080 |})))
    (request "POST" "/c" [("X-Key", "v")] "") newWorld
  = Returned newWorld.
Proof.
  refine (proj1 (fluent_chain_end_to_end (testLib noBackend) (NewGag {| Port := 8080 |})
                   "/c" "GET" "X-Key" "/u" sampleHandler sampleHandler
                   (request "POST" "/c" [("X-Key", "v")] "")
                   (request "POST" "/u" [] "") newWorld _ eq_refl _ eq_refl eq_refl)).
  - intros c' Hc'. inversion Hc'.
  - intros c' Hc'. inversion Hc'.
Defined.
